(** * StockMarginDetail: the cached margin-trading detail table

    A shallow embedding of [sz/stock_data/market/margin_detail.py]: the
    class [StockMarginDetail] keeps a CSV cache of per-day margin-trading
    records and extends it from a remote provider.

    Conventions of the embedding.
    - A [date] is the proleptic Gregorian ordinal of a Python [datetime.date]
      (what [date.toordinal()] returns); [d + timedelta(days = 1)] is [d + 1].
      The [trade_date] cells of a frame are pandas timestamps at midnight; they
      are kept as the date they denote, so [.date()] is the identity.  Their
      range (1677 .. 2262) lies well inside that of [datetime.date], hence the
      addition of one day never overflows.
    - A [DataFrame] is the list of its rows, in index order.
    - The object [self] and the outside world (file system, remote provider)
      are fields of one [State], passed explicitly.
    - The collaborators this file only imports (trading calendar, provider
      client, CSV codec, [need_update_by_trade_date]) are the fields of a
      record [Services] that every method takes. *)

From stdpp Require Import base decidable list sorting strings gmap.
From Stdlib Require Import ZArith Lia Ascii.

Local Open Scope Z_scope.

(** ** Dates *)

Definition date := Z.

Definition is_leap (y : Z) : bool :=
  (y mod 4 =? 0) && (negb (y mod 100 =? 0) || (y mod 400 =? 0)).

Definition days_before_year (y : Z) : Z :=
  let y1 := y - 1 in y1 * 365 + y1 / 4 - y1 / 100 + y1 / 400.

Definition days_in_month (y m : Z) : Z :=
  if m =? 2 then (if is_leap y then 29 else 28)
  else if (m =? 4) || (m =? 6) || (m =? 9) || (m =? 11) then 30 else 31.

Definition days_before_month (y m : Z) : Z :=
  fold_right Z.add 0 (map (days_in_month y) (map Z.of_nat (seq 1 (Z.to_nat (m - 1))))).

(** [date(year, month, day)], as its ordinal. *)
Definition ymd (y m d : Z) : date :=
  days_before_year y + days_before_month y m + d.

(** ** Frames *)

(** One record of the provider: its trade date, the security it is about
    ([ts_code]) and the remaining provider columns as their cell texts. *)
Record Row := mkRow {
  trade_date : date;
  ts_code : string;
  provider_fields : list string
}.

Global Instance Row_eq_dec : EqDecision Row.
Proof. solve_decision. Defined.

Definition DataFrame := list Row.

(** [df.empty] *)
Definition empty (df : DataFrame) : bool :=
  match df with [] => true | _ :: _ => false end.

(** [df.shape]: the tuple (number of rows, number of columns).  The
    columns are counted on the first row; a frame without rows shows none
    here, whatever header it came with. *)
Definition shape (df : DataFrame) : list nat :=
  [ length df;
    match df with
    | [] => 0%nat
    | r :: _ => (2 + length (provider_fields r))%nat
    end ].

(** Truth value of a Python tuple: true exactly when it has an element. *)
Definition truthy {A} (t : list A) : bool :=
  match t with [] => false | _ :: _ => true end.

(** The order of [sort_values(by = 'trade_date')]. *)
Definition by_trade_date (r1 r2 : Row) : Prop := trade_date r1 ≤ trade_date r2.

Global Instance by_trade_date_dec : RelDecision by_trade_date.
Proof. intros r1 r2. unfold by_trade_date. apply _. Defined.

Global Instance by_trade_date_trans : Transitive by_trade_date.
Proof. intros x y z. unfold by_trade_date. lia. Qed.

Global Instance by_trade_date_total : Total by_trade_date.
Proof. intros x y. unfold by_trade_date. lia. Qed.

(** [df.sort_values(by = 'trade_date')].  pandas promises an ascending
    result that is a rearrangement of the rows; the theorems below use
    nothing else of the sort. *)
Definition sort_values (df : DataFrame) : DataFrame :=
  merge_sort by_trade_date df.

(** [pd.concat(df_list)] *)
Definition concat (df_list : list DataFrame) : DataFrame :=
  foldr (fun df acc => df ++ acc) [] df_list.

(** [df.drop_duplicates()]: of several equal rows the first is kept; rows
    are compared on all their columns. *)
Fixpoint drop_duplicates_from (seen : list Row) (df : DataFrame) : DataFrame :=
  match df with
  | [] => []
  | r :: df' =>
      if decide (r ∈ seen) then drop_duplicates_from seen df'
      else r :: drop_duplicates_from (r :: seen) df'
  end.

Definition drop_duplicates (df : DataFrame) : DataFrame :=
  drop_duplicates_from [] df.

(** Lines 126-127: the table that [update] hands to [to_csv]. *)
Definition merge_frames (df_list : list DataFrame) : DataFrame :=
  sort_values (drop_duplicates (concat df_list)).

(** The largest trade date of a table, if it has a row. *)
Definition max_trade_date (df : DataFrame) : option date :=
  match df with
  | [] => None
  | r :: df' => Some (foldr (fun r' m => Z.max (trade_date r') m) (trade_date r) df')
  end.

(** ** Paths ([posixpath]) *)

Definition sep : string := "/".

Definition is_sep (c : ascii) : bool :=
  if decide (c = "/"%char) then true else false.

(** [s.startswith(sep)] *)
Definition startswith_sep (s : string) : bool :=
  match s with
  | String c _ => is_sep c
  | EmptyString => false
  end.

(** [s.endswith(sep)] *)
Fixpoint endswith_sep (s : string) : bool :=
  match s with
  | EmptyString => false
  | String c EmptyString => is_sep c
  | String _ s' => endswith_sep s'
  end.

(** [os.path.join(a, *p)] *)
Definition path_join (a : string) (p : list string) : string :=
  foldl (fun path b =>
           if startswith_sep b then b
           else if (if decide (path = "") then true else endswith_sep path)
                then path +:+ b
                else path +:+ sep +:+ b) a p.

Fixpoint has_sep (s : string) : bool :=
  match s with
  | EmptyString => false
  | String c s' => is_sep c || has_sep s'
  end.

Fixpoint all_sep (s : string) : bool :=
  match s with
  | EmptyString => true
  | String c s' => is_sep c && all_sep s'
  end.

(** [p[:p.rfind(sep) + 1]] *)
Fixpoint upto_last_sep (p : string) : string :=
  match p with
  | EmptyString => EmptyString
  | String c p' =>
      if has_sep p' then String c (upto_last_sep p')
      else if is_sep c then String c EmptyString else EmptyString
  end.

(** [head.rstrip(sep)] *)
Fixpoint rstrip_sep (s : string) : string :=
  match s with
  | EmptyString => EmptyString
  | String c s' =>
      match rstrip_sep s' with
      | EmptyString => if is_sep c then EmptyString else String c EmptyString
      | t => String c t
      end
  end.

(** [os.path.dirname(p)] *)
Definition dirname (p : string) : string :=
  let head := upto_last_sep p in
  if (if decide (head = "") then false else true) && negb (all_sep head)
  then rstrip_sep head else head.

(** ** The manager and its world *)

(** The fields of [self] ([data_dir], [dataframe]) together with what the
    methods reach outside the object: the regular files by path, the
    directories, the provider's state, and the days asked of the provider so
    far, oldest first.  The cache path names a regular file whenever
    something exists there. *)
Record State {Remote : Type} := mkState {
  data_dir : string;
  dataframe : option DataFrame;
  files : gmap string string;
  dirs : gset string;
  remote : Remote;
  requests : list date
}.
Global Arguments State : clear implicits.
Global Arguments mkState {Remote} _ _ _ _ _ _.

(** [StockMarginDetail.base_date] *)
Definition base_date : date := ymd 2014 9 22.

(** What the module imports and calls. *)
Record Services {Remote Exn : Type} := mkServices {
  (** [StockData().trade_calendar.latest_trade_day()] *)
  latest_trade_day : date;
  (** [StockData().trade_calendar.trade_day_between(from_date, to_date)] *)
  trade_day_between : date -> date -> list date;
  (** [toolbox.helper.need_update_by_trade_date(df, 'trade_date')] *)
  need_update_by_trade_date : DataFrame -> bool;
  (** [ts_pro_api().margin_detail(start_date = d, end_date = d)], with its
      [trade_date] cells already turned into timestamps by [to_datetime64];
      the call either raises or answers a frame, and moves the provider on.
      The decorator [ts_rate_limiter] only delays the call. *)
  margin_detail : Remote -> date -> (Exn + DataFrame) * Remote;
  (** [pd.read_csv(path, parse_dates = ['trade_date'])] on the text of a
      file, and [df.to_csv(path, index = False)] as the text it writes. *)
  read_csv : string -> DataFrame;
  to_csv : DataFrame -> string
}.
Global Arguments Services : clear implicits.
Global Arguments mkServices {Remote Exn} _ _ _ _ _ _.

(** Modelled from the spec: [need_update_by_trade_date] of
    [sz/stock_data/toolbox/helper.py], which is not among the sources.  The
    spec has [should_update] answer true, for an existing cache, "if cached
    max date is older than the latest known trading day"; a table without
    rows has no max date. *)
Definition need_update_by_trade_date_model (latest : date) (df : DataFrame) : bool :=
  match max_trade_date df with
  | Some m => m <? latest
  | None => false
  end.

(** The services whose helper is the one modelled from the spec. *)
Definition helper_per_spec {Remote Exn} (S : Services Remote Exn) : Prop :=
  forall df, need_update_by_trade_date S df
             = need_update_by_trade_date_model (latest_trade_day S) df.

Definition set_dataframe {Remote} (df : option DataFrame) (st : State Remote)
    : State Remote :=
  mkState (data_dir st) df (files st) (dirs st) (remote st) (requests st).

Definition set_files {Remote} (fs : gmap string string) (st : State Remote)
    : State Remote :=
  mkState (data_dir st) (dataframe st) fs (dirs st) (remote st) (requests st).

Definition set_dirs {Remote} (ds : gset string) (st : State Remote)
    : State Remote :=
  mkState (data_dir st) (dataframe st) (files st) ds (remote st) (requests st).

(** [StockMarginDetail(data_dir)] in a given world. *)
Definition init {Remote} (dir : string) (fs : gmap string string)
    (ds : gset string) (r : Remote) : State Remote :=
  mkState dir None fs ds r [].

(** [os.path.exists(path)] *)
Definition path_exists {Remote} (path : string) (st : State Remote) : bool :=
  bool_decide (is_Some (files st !! path)).

(** The table held in [self.dataframe]; every use below follows a
    [prepare], after which the field is set (lemma [prepare_loaded]). *)
Definition frame {Remote} (st : State Remote) : DataFrame :=
  match dataframe st with Some df => df | None => [] end.

Definition file_path {Remote} (st : State Remote) : string :=
  path_join (data_dir st) ["market"; "margin_trading_detail.csv"].

(** The directories above [p]: its [dirname], the [dirname] of that, and
    so on while there is one left to name; each is shorter than the one
    before, so the length of [p] bounds their number. *)
Fixpoint parents (fuel : nat) (p : string) : list string :=
  match fuel with
  | O => []
  | Datatypes.S fuel' =>
      let head := dirname p in
      if decide (head = "") then []
      else if decide (head = p) then []
      else head :: parents fuel' head
  end.

(** [os.makedirs(name, exist_ok = True)]: the leaf and every directory
    above it is there afterwards, those that were there before included.
    The paths concerned are taken not to name regular files, so the call
    does not raise. *)
Definition makedirs (name : string) (ds : gset string) : gset string :=
  ds ∪ list_to_set (name :: parents (String.length name) name).

Definition _setup_dir_ {Remote} (st : State Remote) : State Remote :=
  set_dirs (makedirs (dirname (file_path st)) (dirs st)) st.

(** The test [os.path.exists] and the read that follows it are one lookup
    of the path. *)
Definition load {Remote Exn} (S : Services Remote Exn) (st : State Remote)
    : DataFrame * State Remote :=
  match files st !! file_path st with
  | Some text =>
      let df := sort_values (read_csv S text) in
      (df, set_dataframe (Some df) st)
  | None => ([], set_dataframe (Some []) st)
  end.

Definition prepare {Remote Exn} (S : Services Remote Exn) (st : State Remote)
    : State Remote :=
  match dataframe st with
  | None => snd (load S st)
  | Some _ => st
  end.

Definition should_update {Remote Exn} (S : Services Remote Exn)
    (st : State Remote) : bool * State Remote :=
  if negb (path_exists (file_path st) st) then (true, st)
  else
    let st := prepare S st in
    (need_update_by_trade_date S (frame st), st).

Definition ts_margin_detail {Remote Exn} (S : Services Remote Exn)
    (d : date) (st : State Remote) : (Exn + DataFrame) * State Remote :=
  let '(answer, r) := margin_detail S (remote st) d in
  let st := mkState (data_dir st) (dataframe st) (files st) (dirs st) r
                    (requests st ++ [d]) in
  match answer with
  | inl ex => (inl ex, st)
  | inr df => (inr (sort_values df), st)
  end.

(** [self.dataframe.iloc[-1]] is the last row, which a frame that is not
    [empty] has. *)
Definition start_date {Remote Exn} (S : Services Remote Exn)
    (st : State Remote) : date * State Remote :=
  let st := prepare S st in
  if empty (frame st) then (base_date, st)
  else
    match last (frame st) with
    | Some r => (trade_date r + 1, st)
    | None => (base_date, st)
    end.

(** The [for] loop of [update] inside its [try]: the exception that cut it
    short, if any, the list [df_list] as the loop leaves it, and the
    state. *)
Fixpoint fetch_loop {Remote Exn} (S : Services Remote Exn)
    (trad_date_list : list date) (df_list : list DataFrame) (st : State Remote)
    : option Exn * list DataFrame * State Remote :=
  match trad_date_list with
  | [] => (None, df_list, st)
  | d :: rest =>
      match ts_margin_detail S d st with
      | (inl ex, st) => (Some ex, df_list, st)
      | (inr df, st) =>
          let df_list :=
            if negb (truthy (shape df)) then df_list ++ [df] else df_list in
          fetch_loop S rest df_list st
      end
  end.

(** The [finally] block of [update]. *)
Definition persist {Remote Exn} (S : Services Remote Exn)
    (df_list : list DataFrame) (st : State Remote) : State Remote :=
  if (1 <? length df_list)%nat then
    let df := merge_frames df_list in
    set_files (<[ file_path st := to_csv S df ]> (files st))
              (set_dataframe (Some df) st)
  else st.

(** [update] up to the end of its [try]: whether [should_update] said yes,
    and then the outcome of the loop; when it said no there is no list,
    shown as the empty one. *)
Definition update_try {Remote Exn} (S : Services Remote Exn)
    (st : State Remote) : bool * (option Exn * list DataFrame * State Remote) :=
  let st := _setup_dir_ st in
  let st := prepare S st in
  let '(b, st) := should_update S st in
  if b then
    let last_trade_day := latest_trade_day S in
    let df_list := [frame st] in
    let '(from_date, st) := start_date S st in
    let trad_date_list := trade_day_between S from_date last_trade_day in
    (true, fetch_loop S trad_date_list df_list st)
  else (false, (None, [], st)).

(** [update]: the exception it re-raises, if any, and the state it
    leaves. *)
Definition update {Remote Exn} (S : Services Remote Exn) (st : State Remote)
    : option Exn * State Remote :=
  match update_try S st with
  | (true, (ex, df_list, st)) => (ex, persist S df_list st)
  | (false, (_, _, st)) => (None, st)
  end.

(** ** Vocabulary of the statements *)

(** The table the manager works on once [prepare] has run. *)
Definition cached_table {Remote Exn} (S : Services Remote Exn)
    (st : State Remote) : DataFrame :=
  frame (prepare S st).

(** The trading days from [start_date()] to the latest one. *)
Definition days_to_fetch {Remote Exn} (S : Services Remote Exn)
    (st : State Remote) : list date :=
  trade_day_between S (fst (start_date S st)) (latest_trade_day S).

(** Whatever table the object holds is in ascending order of trade date:
    true of a new object and kept by every method. *)
Definition frame_sorted {Remote} (st : State Remote) : Prop :=
  match dataframe st with
  | Some df => StronglySorted by_trade_date df
  | None => True
  end.

(** Two states with the same [data_dir] and the same files. *)
Definition same_cache {Remote} (st st' : State Remote) : Prop :=
  data_dir st' = data_dir st /\ files st' = files st.

(** The pair (date, entity) of a record. *)
Definition date_entity (r : Row) : date * string := (trade_date r, ts_code r).

(** The separator that [os.path.join] puts after its first argument. *)
Definition joint (dir : string) : string :=
  if decide (dir = "") then ""
  else if endswith_sep dir then "" else sep.

(** One call of a method of the manager, as a step from the state before
    to the state after; what the call returns is left out. *)
Inductive call {Remote Exn} (S : Services Remote Exn)
    : State Remote -> State Remote -> Prop :=
  | call_setup_dir st : call S st (_setup_dir_ st)
  | call_load st : call S st (snd (load S st))
  | call_prepare st : call S st (prepare S st)
  | call_should_update st : call S st (snd (should_update S st))
  | call_start_date st : call S st (snd (start_date S st))
  | call_ts_margin_detail d st : call S st (snd (ts_margin_detail S d st))
  | call_update st : call S st (snd (update S st)).

(** The states a manager made by [StockMarginDetail(dir)] can be in after
    any number of calls, the world being touched by nobody else. *)
Definition reachable {Remote Exn} (S : Services Remote Exn) (dir : string)
    (fs : gmap string string) (ds : gset string) (r : Remote)
    (st : State Remote) : Prop :=
  rtc (call S) (init dir fs ds r) st.

(** The table of the cache file of [dir] among the files [fs], as [load]
    reads it. *)
Definition table_on_disk {Remote Exn} (S : Services Remote Exn) (dir : string)
    (fs : gmap string string) : DataFrame :=
  match fs !! path_join dir ["market"; "margin_trading_detail.csv"] with
  | Some text => sort_values (read_csv S text)
  | None => []
  end.

(** The table in memory, if there is one, is the table of the cache
    file. *)
Definition in_sync {Remote Exn} (S : Services Remote Exn) (st : State Remote)
    : Prop :=
  dataframe st = None
  \/ dataframe st = Some (table_on_disk S (data_dir st) (files st)).

(** ** A small world to run the methods in *)

Module Demo.

(** Trading days 2014-09-22 (a Monday) to 2014-09-24. *)
Definition mon : date := ymd 2014 9 22.
Definition tue : date := ymd 2014 9 23.
Definition wed : date := ymd 2014 9 24.

Definition rec (d : date) (code rzye : string) : Row := mkRow d code [rzye].

(** Cache files by their text. *)
Definition fixtures : list (string * DataFrame) :=
  [ ("cache up to Monday",
      [rec mon "600000.SH" "100"; rec mon "000001.SZ" "70"]);
    ("cache up to Wednesday",
      [rec wed "600000.SH" "130"; rec mon "600000.SH" "100";
       rec tue "600000.SH" "120"]) ].

Definition read_fixture (text : string) : DataFrame :=
  match list_find (fun tf => fst tf = text) fixtures with
  | Some (_, (_, df)) => df
  | None => []
  end.

Definition write_fixture (df : DataFrame) : string :=
  match list_find (fun tf => snd tf = df) fixtures with
  | Some (_, (text, _)) => text
  | None => ""
  end.

(** Every day from [a] to [b] is a trading day. *)
Definition every_day (a b : date) : list date :=
  map (fun i => a + Z.of_nat i) (seq 0 (Z.to_nat (b - a + 1))).

(** A provider that answers one record per day and counts its answers; it
    raises on the day [down], if there is one. *)
Definition provider (down : option date) (answered : nat) (d : date)
    : (string + DataFrame) * nat :=
  if decide (down = Some d) then (inl "connection reset", answered)
  else (inr [rec d "600000.SH" "140"], Datatypes.S answered).

Definition services (down : option date) : Services nat string :=
  mkServices wed every_day (need_update_by_trade_date_model wed)
             (provider down) read_fixture write_fixture.

Definition cache_path : string := "/data/market/margin_trading_detail.csv".

(** A new manager on [/data] without a cache file. *)
Definition no_cache : State nat := init "/data" ∅ ∅ 0%nat.

(** A new manager whose cache ends on Monday, resp. on Wednesday. *)
Definition stale_cache : State nat :=
  init "/data" {[ cache_path := "cache up to Monday" ]} ∅ 0%nat.

Definition fresh_cache : State nat :=
  init "/data" {[ cache_path := "cache up to Wednesday" ]} ∅ 0%nat.

(** A new manager whose [data_dir] is the empty string. *)
Definition here : State nat := init "" ∅ ∅ 0%nat.

(** Two fetched slices that tell different balances for one security on
    one day. *)
Definition conflicting : list DataFrame :=
  [ [rec mon "600000.SH" "100"]; [rec mon "600000.SH" "101"] ].

(** A cache and a slice that repeats one of its records. *)
Definition monday_table : DataFrame :=
  [rec mon "600000.SH" "100"; rec mon "000001.SZ" "70"].

Definition monday_again : list DataFrame := [ [rec mon "000001.SZ" "70"] ].





End Demo.

(** * Properties *)

(** ** Dates and paths *)

Example base_date_ordinal : base_date = 735498.
Proof. reflexivity. Qed.

Example ymd_epoch : ymd 1 1 1 = 1 /\ ymd 1970 1 1 = 719163 /\ ymd 2016 3 1 = ymd 2016 2 28 + 2.
Proof. repeat split. Qed.

Lemma append_cons (c : ascii) (s t : string) :
  String c s +:+ t = String c (s +:+ t).
Proof. reflexivity. Qed.

Lemma append_assoc (a b c : string) : (a +:+ b) +:+ c = a +:+ b +:+ c.
Proof.
  induction a as [|x a IH]; [reflexivity|].
  rewrite !append_cons. f_equal. exact IH.
Qed.

Lemma append_letter_not_empty (s : string) (c : ascii) (t : string) :
  s +:+ String c t <> "".
Proof. destruct s; rewrite ?append_cons; discriminate. Qed.

(** A path that ends in a directory name does not end in the separator. *)
Lemma endswith_sep_market (s : string) : endswith_sep (s +:+ "market") = false.
Proof.
  induction s as [|c s IH]; [reflexivity|].
  rewrite append_cons. simpl. rewrite IH.
  destruct (s +:+ "market") eqn:E; [|reflexivity].
  destruct (append_letter_not_empty _ _ _ E).
Qed.

Lemma path_join_market (dir : string) :
  path_join dir ["market"; "margin_trading_detail.csv"]
  = dir +:+ joint dir +:+ "market/margin_trading_detail.csv".
Proof.
  unfold path_join, joint. cbn [foldl].
  change (startswith_sep "market") with false.
  change (startswith_sep "margin_trading_detail.csv") with false.
  cbv iota.
  destruct (decide (dir = "")) as [->|Hdir]; [reflexivity|].
  destruct (endswith_sep dir) eqn:Hend.
  - destruct (decide (dir +:+ "market" = "")) as [E|_];
      [destruct (append_letter_not_empty _ _ _ E)|].
    rewrite endswith_sep_market, !append_assoc. reflexivity.
  - rewrite <- (append_assoc dir sep "market").
    destruct (decide ((dir +:+ sep) +:+ "market" = "")) as [E|_];
      [destruct (append_letter_not_empty _ _ _ E)|].
    rewrite endswith_sep_market, !append_assoc. reflexivity.
Qed.

(** ** Frames *)

Lemma guard_never_holds (df : DataFrame) : negb (truthy (shape df)) = false.
Proof. reflexivity. Qed.

Lemma sort_values_sorted (df : DataFrame) :
  StronglySorted by_trade_date (sort_values df).
Proof. apply StronglySorted_merge_sort; apply _. Qed.

Lemma sort_values_perm (df : DataFrame) : sort_values df ≡ₚ df.
Proof. apply merge_sort_Permutation. Qed.

Lemma elem_of_sort_values (r : Row) (df : DataFrame) :
  r ∈ sort_values df <-> r ∈ df.
Proof. by rewrite sort_values_perm. Qed.

Lemma elem_of_drop_duplicates_from (seen df : DataFrame) (r : Row) :
  r ∈ drop_duplicates_from seen df <-> r ∈ df /\ r ∉ seen.
Proof.
  revert seen. induction df as [|x df IH]; intros seen; simpl.
  - split; [intros H|intros [H _]]; inversion H.
  - destruct (decide _) as [Hx|Hx].
    + rewrite IH, elem_of_cons. split; [tauto|].
      intros [[->|H] Hn]; [contradiction|tauto].
    + rewrite !elem_of_cons, IH, not_elem_of_cons.
      destruct (decide (r = x)) as [->|Hne]; tauto.
Qed.

Lemma NoDup_drop_duplicates_from (seen df : DataFrame) :
  NoDup (drop_duplicates_from seen df).
Proof.
  revert seen. induction df as [|x df IH]; intros seen; simpl.
  - constructor.
  - destruct (decide _); [apply IH|].
    constructor; [|apply IH].
    rewrite elem_of_drop_duplicates_from, not_elem_of_cons. tauto.
Qed.

Lemma elem_of_drop_duplicates (df : DataFrame) (r : Row) :
  r ∈ drop_duplicates df <-> r ∈ df.
Proof.
  unfold drop_duplicates. rewrite elem_of_drop_duplicates_from.
  split; [tauto|]. intros H. split; [done|]. apply not_elem_of_nil.
Qed.

Lemma elem_of_concat (df_list : list DataFrame) (r : Row) :
  r ∈ concat df_list <-> exists df, df ∈ df_list /\ r ∈ df.
Proof.
  induction df_list as [|d l IH]; simpl.
  - split; [intros H; inversion H | intros (df & H & _); inversion H].
  - rewrite elem_of_app, IH. split.
    + intros [H|(df & H1 & H2)]; [exists d | exists df];
        (split; [|done]); [apply list_elem_of_here|by apply list_elem_of_further].
    + intros (df & H1 & H2). apply elem_of_cons in H1 as [->|H1]; eauto.
Qed.

(** The fold of [max_trade_date] returns its start value or the date of a
    row, and bounds both. *)
Lemma fold_max_bounds (l : DataFrame) (b : Z) :
  let f := foldr (fun r' m => Z.max (trade_date r') m) b l in
  (f = b \/ exists r, r ∈ l /\ trade_date r = f)
  /\ b ≤ f /\ forall r, r ∈ l -> trade_date r ≤ f.
Proof.
  induction l as [|x l IH]; simpl.
  - split; [by left|]. split; [lia|]. intros r H; inversion H.
  - destruct IH as (Hw & Hb & Hall).
    set (f := foldr (fun r' m => Z.max (trade_date r') m) b l) in *.
    split; [|split].
    + destruct (Z.max_spec (trade_date x) f) as [[_ ->]|[_ ->]].
      * destruct Hw as [?|(r & ? & ?)]; [by left|].
        right; exists r. split; [by apply list_elem_of_further|done].
      * right; exists x. split; [apply list_elem_of_here|done].
    + lia.
    + intros r Hr. apply elem_of_cons in Hr as [->|Hr]; [lia|].
      specialize (Hall r Hr). lia.
Qed.

(** [max_trade_date] is the date of a row that no row exceeds. *)
Lemma max_trade_date_Some (df : DataFrame) (m : date) :
  max_trade_date df = Some m <->
  (exists r, r ∈ df /\ trade_date r = m) /\ (forall r, r ∈ df -> trade_date r ≤ m).
Proof.
  destruct df as [|x df]; simpl.
  - split; [discriminate|]. intros [(r & H & _) _]. inversion H.
  - destruct (fold_max_bounds df (trade_date x)) as (Hw & Hb & Hall). simpl in *.
    set (f := foldr (fun r' m => Z.max (trade_date r') m) (trade_date x) df) in *.
    assert (Hex : exists r, r ∈ x :: df /\ trade_date r = f).
    { destruct Hw as [Hw|(r & ? & ?)]; [exists x|exists r].
      - split; [apply list_elem_of_here|done].
      - split; [by apply list_elem_of_further|done]. }
    assert (Hub : forall r, r ∈ x :: df -> trade_date r ≤ f).
    { intros r Hr. apply elem_of_cons in Hr as [->|Hr]; auto. }
    split.
    + intros [= <-]. auto.
    + intros [(r & Hr & <-) Hm]. f_equal.
      destruct Hex as (r' & Hr' & <-).
      specialize (Hm r' Hr'). specialize (Hub r Hr). lia.
Qed.

Lemma max_trade_date_None (df : DataFrame) :
  max_trade_date df = None <-> df = [].
Proof. destruct df; simpl; split; congruence. Qed.

Lemma max_trade_date_perm (df df' : DataFrame) :
  df ≡ₚ df' -> max_trade_date df = max_trade_date df'.
Proof.
  intros Hp. destruct (max_trade_date df) as [m|] eqn:E.
  - symmetry. apply max_trade_date_Some in E. apply max_trade_date_Some.
    setoid_rewrite <- Hp. exact E.
  - apply max_trade_date_None in E. subst df.
    apply Permutation_nil_l in Hp. by subst df'.
Qed.

Lemma sorted_last_bounds (df : DataFrame) (r : Row) :
  StronglySorted by_trade_date df -> last df = Some r ->
  forall r', r' ∈ df -> trade_date r' ≤ trade_date r.
Proof.
  induction 1 as [|x l Hl IH Hx]; intros Hlast r' Hr'; [inversion Hr'|].
  destruct l as [|y l].
  - simpl in Hlast. injection Hlast as <-.
    apply list_elem_of_singleton in Hr' as ->. lia.
  - change (last (x :: y :: l)) with (last (y :: l)) in Hlast.
    apply elem_of_cons in Hr' as [->|Hr']; [|by apply IH].
    rewrite Forall_forall in Hx. apply Hx.
    apply last_Some_elem_of. exact Hlast.
Qed.

(** In a sorted table the last row carries the max trade date. *)
Lemma max_trade_date_sorted (df : DataFrame) :
  StronglySorted by_trade_date df ->
  max_trade_date df = trade_date <$> last df.
Proof.
  intros Hs. destruct (last df) as [r|] eqn:E; simpl.
  - apply max_trade_date_Some. split.
    + exists r. split; [by apply last_Some_elem_of|done].
    + by apply sorted_last_bounds.
  - apply last_None in E. by subst df.
Qed.

(** ** The methods *)

Section Methods.
Context {Remote Exn : Type} (S : Services Remote Exn).
Implicit Types (st : State Remote) (df : DataFrame) (d : date).

Lemma same_cache_refl st : same_cache st st.
Proof. by split. Qed.

Lemma same_cache_trans st1 st2 st3 :
  same_cache st1 st2 -> same_cache st2 st3 -> same_cache st1 st3.
Proof. intros [? ?] [? ?]. split; congruence. Qed.

Lemma same_cache_file_path st st' : same_cache st st' -> file_path st' = file_path st.
Proof. intros [H _]. unfold file_path. by rewrite H. Qed.

Lemma same_cache_lookup st st' :
  same_cache st st' -> files st' !! file_path st' = files st !! file_path st.
Proof. intros H. rewrite (same_cache_file_path _ _ H). destruct H as [_ ->]. done. Qed.

Lemma load_eq st : load S st = (fst (load S st), set_dataframe (Some (fst (load S st))) st).
Proof. unfold load. by destruct (files st !! file_path st). Qed.

Lemma prepare_eq st : prepare S st = set_dataframe (Some (cached_table S st)) st.
Proof.
  unfold cached_table, prepare.
  destruct (dataframe st) as [df|] eqn:E.
  - unfold frame. rewrite E. destruct st; simpl in *. by subst.
  - rewrite load_eq. reflexivity.
Qed.

Lemma prepare_loaded st : dataframe (prepare S st) = Some (cached_table S st).
Proof. by rewrite prepare_eq. Qed.

Lemma prepare_idem st : prepare S (prepare S st) = prepare S st.
Proof. unfold prepare at 1. by rewrite prepare_loaded. Qed.

Lemma prepare_same_cache st : same_cache st (prepare S st).
Proof. rewrite prepare_eq. by split. Qed.

Lemma prepare_requests st : requests (prepare S st) = requests st.
Proof. by rewrite prepare_eq. Qed.

(** A table that is not loaded yet is read from the cache file. *)
Lemma cached_table_unloaded st :
  dataframe st = None ->
  cached_table S st
  = match files st !! file_path st with
    | Some text => sort_values (read_csv S text)
    | None => []
    end.
Proof.
  intros E. unfold cached_table, prepare, load. rewrite E.
  by destruct (files st !! file_path st).
Qed.

Lemma cached_table_loaded st df : dataframe st = Some df -> cached_table S st = df.
Proof. intros E. unfold cached_table, prepare, frame. by rewrite E, E. Qed.

Lemma prepare_sorted st : frame_sorted st -> frame_sorted (prepare S st).
Proof.
  unfold frame_sorted. intros H. rewrite prepare_loaded.
  destruct (dataframe st) as [df|] eqn:E.
  - by rewrite (cached_table_loaded _ _ E).
  - rewrite (cached_table_unloaded _ E).
    destruct (files st !! file_path st); [apply sort_values_sorted|constructor].
Qed.

Lemma should_update_state st :
  snd (should_update S st) = st \/ snd (should_update S st) = prepare S st.
Proof. unfold should_update. destruct (negb _); simpl; auto. Qed.

Lemma should_update_prepared st :
  snd (should_update S (prepare S st)) = prepare S st.
Proof. destruct (should_update_state (prepare S st)) as [->| ->]; [done|apply prepare_idem]. Qed.

Lemma start_date_state st : snd (start_date S st) = prepare S st.
Proof. unfold start_date. destruct (empty _); [done|]. by destruct (last _). Qed.

Lemma ts_margin_detail_same_cache d st :
  same_cache st (snd (ts_margin_detail S d st)).
Proof.
  unfold ts_margin_detail. destruct (margin_detail S (remote st) d) as [[ex|df] r];
    by split.
Qed.

Lemma ts_margin_detail_dataframe d st :
  dataframe (snd (ts_margin_detail S d st)) = dataframe st.
Proof.
  unfold ts_margin_detail. by destruct (margin_detail S (remote st) d) as [[ex|df] r].
Qed.

Lemma ts_margin_detail_requests d st :
  requests (snd (ts_margin_detail S d st)) = requests st ++ [d].
Proof.
  unfold ts_margin_detail. by destruct (margin_detail S (remote st) d) as [[ex|df] r].
Qed.

(** What the provider answers is sorted before it is handed on. *)
Lemma ts_margin_detail_sorted d st df :
  fst (ts_margin_detail S d st) = inr df -> StronglySorted by_trade_date df.
Proof.
  unfold ts_margin_detail.
  destruct (margin_detail S (remote st) d) as [[ex|df'] r]; simpl; [done|].
  intros [= <-]. apply sort_values_sorted.
Qed.

(** The loop never extends [df_list] and leaves the object and the files
    alone. *)
Lemma fetch_loop_frame days (df_list : list DataFrame) st :
  snd (fst (fetch_loop S days df_list st)) = df_list
  /\ same_cache st (snd (fetch_loop S days df_list st))
  /\ dataframe (snd (fetch_loop S days df_list st)) = dataframe st.
Proof.
  revert st. induction days as [|d days IH]; intros st; simpl.
  - repeat split.
  - pose proof (ts_margin_detail_same_cache d st) as Hc.
    pose proof (ts_margin_detail_dataframe d st) as Hd.
    destruct (ts_margin_detail S d st) as [[ex|df] st1]; simpl in *.
    + auto.
    + destruct (IH st1) as (H1 & H2 & H3).
      split; [done|]. split; [eapply same_cache_trans; eauto|congruence].
Qed.

(** A loop that ends without exception has asked for every day, in order. *)
Lemma fetch_loop_requests days (df_list : list DataFrame) st :
  fst (fst (fetch_loop S days df_list st)) = None ->
  requests (snd (fetch_loop S days df_list st)) = requests st ++ days.
Proof.
  revert st. induction days as [|d days IH]; intros st; simpl.
  - by rewrite app_nil_r.
  - pose proof (ts_margin_detail_requests d st) as Hr.
    destruct (ts_margin_detail S d st) as [[ex|df] st1]; simpl in *; [done|].
    intros H. rewrite (IH _ H), Hr, <- app_assoc. done.
Qed.

(** Whatever happens, the days asked for are an initial part of the list. *)
Lemma fetch_loop_requests_prefix days (df_list : list DataFrame) st :
  exists n, requests (snd (fetch_loop S days df_list st)) = requests st ++ take n days.
Proof.
  revert st. induction days as [|d days IH]; intros st; simpl.
  - exists 0%nat. by rewrite app_nil_r.
  - pose proof (ts_margin_detail_requests d st) as Hr.
    destruct (ts_margin_detail S d st) as [[ex|df] st1]; simpl in *.
    + exists 1%nat. by rewrite Hr.
    + destruct (IH st1) as [n Hn]. exists (Datatypes.S n).
      rewrite Hn, Hr, <- app_assoc. done.
Qed.

(** An exception ends the loop at once and is its outcome. *)
Lemma fetch_loop_raise d days (df_list : list DataFrame) st ex :
  fst (ts_margin_detail S d st) = inl ex ->
  fetch_loop S (d :: days) df_list st
  = (Some ex, df_list, snd (ts_margin_detail S d st)).
Proof.
  simpl. destruct (ts_margin_detail S d st) as [[ex'|df] st1]; simpl; congruence.
Qed.

Lemma persist_short (df_list : list DataFrame) st :
  (length df_list <= 1)%nat -> persist S df_list st = st.
Proof.
  intros H. unfold persist.
  destruct (1 <? length df_list)%nat eqn:E; [|done].
  apply Nat.ltb_lt in E. lia.
Qed.

(** With two tables or more the [finally] block writes their merge. *)
Lemma persist_long (df_list : list DataFrame) st :
  (1 < length df_list)%nat ->
  files (persist S df_list st) !! file_path st
  = Some (to_csv S (merge_frames df_list))
  /\ dataframe (persist S df_list st) = Some (merge_frames df_list).
Proof.
  intros H. unfold persist.
  destruct (1 <? length df_list)%nat eqn:E.
  - simpl. by rewrite lookup_insert_eq.
  - apply Nat.ltb_ge in E. lia.
Qed.

(** [update] is: prepare, ask [should_update], and if it says yes run the
    loop from the prepared state; the [finally] block finds [df_list] as
    it was set up. *)
Lemma update_try_eq st :
  let st1 := prepare S (_setup_dir_ st) in
  update_try S st
  = if fst (should_update S st1)
    then (true, fetch_loop S (days_to_fetch S st1) [frame st1] st1)
    else (false, (None, [], st1)).
Proof.
  unfold update_try, days_to_fetch. cbv zeta.
  set (st1 := prepare S (_setup_dir_ st)).
  pose proof (should_update_prepared (_setup_dir_ st)) as Hs. fold st1 in Hs.
  destruct (should_update S st1) as [b st2]; simpl in *. subst st2.
  destruct b; [|done].
  pose proof (start_date_state st1) as Hd.
  destruct (start_date S st1) as [d0 st3]; simpl in *. subst st3.
  unfold st1. by rewrite prepare_idem.
Qed.

Lemma update_eq st :
  let st1 := prepare S (_setup_dir_ st) in
  update S st
  = if fst (should_update S st1)
    then let r := fetch_loop S (days_to_fetch S st1) [frame st1] st1 in
         (fst (fst r), snd r)
    else (None, st1).
Proof.
  cbv zeta. unfold update. rewrite update_try_eq. cbv zeta.
  set (st1 := prepare S (_setup_dir_ st)).
  destruct (fst (should_update S st1)); [|done].
  destruct (fetch_loop_frame (days_to_fetch S st1) [frame st1] st1) as (H & _ & _).
  destruct (fetch_loop S (days_to_fetch S st1) [frame st1] st1) as [[ex dfl] st2].
  simpl in *. subst dfl. by rewrite persist_short.
Qed.

Lemma setup_dir_same_cache st : same_cache st (_setup_dir_ st).
Proof. by split. Qed.

Lemma update_same_cache st : same_cache st (snd (update S st)).
Proof.
  rewrite update_eq. cbv zeta.
  assert (H1 : same_cache st (prepare S (_setup_dir_ st))).
  { eapply same_cache_trans; [apply setup_dir_same_cache|apply prepare_same_cache]. }
  destruct (fst (should_update S _)); simpl; [|done].
  eapply same_cache_trans; [exact H1|]. apply fetch_loop_frame.
Qed.

Lemma update_sorted st : frame_sorted st -> frame_sorted (snd (update S st)).
Proof.
  intros Hs. rewrite update_eq. cbv zeta.
  assert (H1 : frame_sorted (prepare S (_setup_dir_ st))) by by apply prepare_sorted.
  destruct (fst (should_update S _)); simpl; [|done].
  unfold frame_sorted.
  destruct (fetch_loop_frame (days_to_fetch S (prepare S (_setup_dir_ st)))
              [frame (prepare S (_setup_dir_ st))] (prepare S (_setup_dir_ st)))
    as (_ & _ & ->).
  exact H1.
Qed.

(** When no fetch raises, [update] has asked for each day to fetch, in
    order, and for nothing else. *)
Lemma update_requests st :
  fst (should_update S (prepare S (_setup_dir_ st))) = true ->
  fst (update S st) = None ->
  requests (snd (update S st))
  = requests st ++ days_to_fetch S (prepare S (_setup_dir_ st)).
Proof.
  rewrite update_eq. cbv zeta. intros -> H. simpl in *.
  rewrite (fetch_loop_requests _ _ _ H). by rewrite prepare_requests.
Qed.

(** Over a sorted table [start_date] is one day past the max trade date,
    and the base date when there is none. *)
Lemma start_date_eq st :
  frame_sorted st ->
  fst (start_date S st)
  = match max_trade_date (cached_table S st) with
    | Some m => m + 1
    | None => base_date
    end.
Proof.
  intros Hs. apply prepare_sorted in Hs.
  unfold frame_sorted in Hs. rewrite prepare_loaded in Hs.
  rewrite (max_trade_date_sorted _ Hs).
  unfold start_date. fold (cached_table S st).
  destruct (cached_table S st) as [|r df] eqn:E; [done|].
  cbn [empty]. by destruct (last (r :: df)).
Qed.

(** The max trade date of the table a new manager loads is that of the
    cache file. *)
Lemma max_trade_date_unloaded st :
  dataframe st = None ->
  max_trade_date (cached_table S st)
  = match files st !! file_path st with
    | Some text => max_trade_date (read_csv S text)
    | None => None
    end.
Proof.
  intros E. rewrite (cached_table_unloaded _ E).
  destruct (files st !! file_path st); [|done].
  apply max_trade_date_perm, sort_values_perm.
Qed.

(** With the helper as the spec describes it, a new manager whose cache
    file ends on the latest trading day asks the provider for nothing. *)
Lemma update_up_to_date st text :
  helper_per_spec S ->
  dataframe st = None ->
  files st !! file_path st = Some text ->
  max_trade_date (read_csv S text) = Some (latest_trade_day S) ->
  update S st = (None, prepare S (_setup_dir_ st))
  /\ requests (snd (update S st)) = requests st.
Proof.
  intros Hh E Hf Hm.
  assert (Hno : fst (should_update S (prepare S (_setup_dir_ st))) = false).
  { unfold should_update, path_exists.
    rewrite (same_cache_lookup st (prepare S (_setup_dir_ st)))
      by (eapply same_cache_trans; [apply setup_dir_same_cache|apply prepare_same_cache]).
    rewrite Hf, bool_decide_eq_true_2 by eauto. simpl.
    rewrite prepare_idem, Hh. fold (cached_table S (_setup_dir_ st)).
    unfold need_update_by_trade_date_model.
    rewrite (max_trade_date_unloaded (_setup_dir_ st) E).
    change (files (_setup_dir_ st) !! file_path (_setup_dir_ st))
      with (files st !! file_path st).
    rewrite Hf, Hm. apply Z.ltb_irrefl. }
  rewrite update_eq. cbv zeta. rewrite Hno. split; [done|].
  simpl. by rewrite prepare_requests.
Qed.

End Methods.

(** ** The cache path *)

(** C10, as the code has it: the cache path is
    [os.path.join(data_dir, 'market', 'margin_trading_detail.csv')], that
    is [data_dir], then a separator unless [data_dir] is empty or already
    ends in one, then [market/margin_trading_detail.csv]; [update] and
    [load] leave it as it is. *)
Theorem file_path_joined {Remote Exn} (S : Services Remote Exn) (st : State Remote) :
  file_path st
  = data_dir st +:+ joint (data_dir st) +:+ "market/margin_trading_detail.csv"
  /\ file_path (snd (load S st)) = file_path st
  /\ file_path (snd (update S st)) = file_path st.
Proof.
  split; [apply path_join_market|]. split.
  - rewrite load_eq. reflexivity.
  - apply same_cache_file_path, update_same_cache.
Qed.

(** C10, as stated, fails for the empty [data_dir]: the path is then the
    relative [market/margin_trading_detail.csv], without a leading
    separator. *)
Lemma file_path_of_empty_data_dir :
  file_path Demo.here
  <> data_dir Demo.here +:+ "/market/margin_trading_detail.csv".
Proof. vm_compute. discriminate. Qed.

(** ** [load], [start_date] and [should_update] *)

(** C9: [load] sets [self.dataframe] to the table it returns; with a cache
    file that table is the file's table ([trade_date] read as dates) in
    ascending order of trade date, without one it is the empty table. *)
Theorem load_reads_cache {Remote Exn} (S : Services Remote Exn) (st : State Remote) :
  let df := fst (load S st) in
  snd (load S st) = set_dataframe (Some df) st
  /\ dataframe (snd (load S st)) = Some df
  /\ match files st !! file_path st with
     | Some text =>
         df = sort_values (read_csv S text)
         /\ df ≡ₚ read_csv S text
         /\ StronglySorted by_trade_date df
     | None => df = []
     end.
Proof.
  cbv zeta. split; [by rewrite load_eq at 1|]. split; [by rewrite load_eq at 1|].
  unfold load. destruct (files st !! file_path st) as [text|]; simpl; [|done].
  split; [done|]. split; [apply sort_values_perm|apply sort_values_sorted].
Qed.

(** ** [update] *)

(** C2: the guard [not df.shape] is false for every frame, so the loop
    hands back [df_list] as it got it, the list has at most one element
    when the [finally] block looks at it, and [update] leaves every file
    as it was. *)
Theorem update_never_writes {Remote Exn} (S : Services Remote Exn) (st : State Remote) :
  (forall df, negb (truthy (shape df)) = false)
  /\ (forall days df_list st0, snd (fst (fetch_loop S days df_list st0)) = df_list)
  /\ (length (snd (fst (snd (update_try S st)))) <= 1)%nat
  /\ files (snd (update S st)) = files st.
Proof.
  split; [apply guard_never_holds|].
  split; [intros; apply fetch_loop_frame|].
  split; [|apply update_same_cache].
  rewrite update_try_eq. cbv zeta.
  destruct (fst (should_update S _)); simpl; [|lia].
  destruct (fetch_loop_frame S (days_to_fetch S (prepare S (_setup_dir_ st)))
              [frame (prepare S (_setup_dir_ st))] (prepare S (_setup_dir_ st)))
    as (-> & _). simpl. lia.
Qed.

(** C5: when the cache file's max trade date is the latest trading day,
    two runs of [update] leave the files, and so the text of the cache
    file, as they were; neither run writes. *)
Theorem update_twice_keeps_file {Remote Exn} (S : Services Remote Exn)
    (st : State Remote) (text : string) :
  files st !! file_path st = Some text ->
  max_trade_date (read_csv S text) = Some (latest_trade_day S) ->
  let st1 := snd (update S st) in
  let st2 := snd (update S st1) in
  files st1 = files st
  /\ files st2 = files st1
  /\ files st2 !! file_path st2 = Some text.
Proof.
  intros Hf _. cbv zeta.
  pose proof (update_same_cache S st) as H1.
  pose proof (update_same_cache S (snd (update S st))) as H2.
  split; [apply H1|]. split; [apply H2|].
  rewrite (same_cache_lookup _ _ H2), (same_cache_lookup _ _ H1). exact Hf.
Qed.

(** The table that the merge of lines 126-127 makes of a [df_list] is in
    ascending order of trade date, holds no row twice, and holds exactly
    the rows of the tables of [df_list]. *)
Theorem merge_frames_sorted_nodup (df_list : list DataFrame) :
  StronglySorted by_trade_date (merge_frames df_list)
  /\ NoDup (merge_frames df_list)
  /\ forall r, r ∈ merge_frames df_list <-> exists df, df ∈ df_list /\ r ∈ df.
Proof.
  unfold merge_frames. split; [apply sort_values_sorted|]. split.
  - rewrite sort_values_perm. apply NoDup_drop_duplicates_from.
  - intros r. by rewrite elem_of_sort_values, elem_of_drop_duplicates, elem_of_concat.
Qed.

(** [drop_duplicates] compares whole rows: two records of one security on
    one day that differ in another column both stay in a merged table. *)
Lemma merge_frames_keeps_conflicting_records :
  ~ (StronglySorted by_trade_date (merge_frames Demo.conflicting)
     /\ NoDup (date_entity <$> merge_frames Demo.conflicting)).
Proof.
  intros [_ H]. vm_compute in H.
  apply NoDup_cons in H as [H _]. apply H. constructor.
Qed.


(** C1 on a cache that ends on Monday while Wednesday is the latest
    trading day: [should_update] says yes, Tuesday and Wednesday are
    fetched in order and no exception is raised, yet the file keeps its
    text and the object its Monday table. *)
Lemma update_drops_fetched_days :
  let r := update (Demo.services None) Demo.stale_cache in
  fst (should_update (Demo.services None) Demo.stale_cache) = true
  /\ fst r = None
  /\ requests (snd r) = [Demo.tue; Demo.wed]
  /\ files (snd r) !! Demo.cache_path = Some "cache up to Monday"
  /\ dataframe (snd r) = Some (sort_values (Demo.read_fixture "cache up to Monday")).
Proof. cbv zeta. repeat split; vm_compute; reflexivity. Qed.

(** C3 without a cache, the provider failing on Tuesday: Monday and
    Tuesday are asked for, Wednesday is not, and the exception comes
    out; but Monday's slice is not written, and no cache file exists
    afterwards. *)
Lemma update_loses_slices_on_exception :
  let r := update (Demo.services (Some Demo.tue)) Demo.no_cache in
  fst r = Some "connection reset"
  /\ requests (snd r) = [Demo.mon; Demo.tue]
  /\ files (snd r) !! Demo.cache_path = None
  /\ dataframe (snd r) = Some [].
Proof. cbv zeta. repeat split; vm_compute; reflexivity. Qed.

(** C4 without a cache, the provider answering every day: the fetch
    starts from the base date and runs to the latest trading day, but no
    cache file exists afterwards. *)
Lemma update_leaves_cache_missing :
  let r := update (Demo.services None) Demo.no_cache in
  fst (start_date (Demo.services None) Demo.no_cache) = base_date
  /\ fst r = None
  /\ requests (snd r) = [ymd 2014 9 22; ymd 2014 9 23; ymd 2014 9 24]
  /\ files (snd r) !! file_path Demo.no_cache = None.
Proof. cbv zeta. repeat split; vm_compute; reflexivity. Qed.

(** A new manager without a cache file: [should_update] says yes and the
    fetch starts at the base date, yet [update] leaves no file behind,
    whatever the provider answers. *)
Lemma update_without_cache {Remote Exn} (S : Services Remote Exn) (st : State Remote) :
  dataframe st = None ->
  files st !! file_path st = None ->
  fst (should_update S (prepare S (_setup_dir_ st))) = true
  /\ fst (start_date S st) = base_date
  /\ files (snd (update S st)) !! file_path st = None.
Proof.
  intros E Hf. split; [|split].
  - unfold should_update, path_exists.
    rewrite (same_cache_lookup st (prepare S (_setup_dir_ st))).
    + rewrite Hf. by rewrite bool_decide_eq_false_2 by (intros [? ?]; done).
    + eapply same_cache_trans; [apply setup_dir_same_cache|apply prepare_same_cache].
  - unfold start_date. fold (cached_table S st).
    rewrite (cached_table_unloaded S _ E), Hf. done.
  - destruct (update_same_cache S st) as [_ ->]. exact Hf.
Qed.

Example start_date_on_fresh_cache :
  fst (start_date (Demo.services None) Demo.fresh_cache) = ymd 2014 9 25.
Proof. reflexivity. Qed.

Example should_update_on_fresh_cache :
  fst (should_update (Demo.services None) Demo.fresh_cache) = false.
Proof. vm_compute. reflexivity. Qed.

Example load_sorts_the_cache :
  trade_date <$> fst (load (Demo.services None) Demo.fresh_cache)
  = [Demo.mon; Demo.tue; Demo.wed].
Proof. vm_compute. reflexivity. Qed.

Example file_path_on_data :
  file_path Demo.no_cache = Demo.cache_path
  /\ file_path (init "/data/" ∅ ∅ 0%nat) = Demo.cache_path
  /\ dirname (file_path Demo.no_cache) = "/data/market".
Proof. repeat split; vm_compute; reflexivity. Qed.

(** ** The statements at work *)

(** The cache that ends on Wednesday, the latest trading day, keeps its
    text through two runs. *)
Lemma update_twice_keeps_file_witness :
  files Demo.fresh_cache !! file_path Demo.fresh_cache = Some "cache up to Wednesday"
  /\ max_trade_date (read_csv (Demo.services None) "cache up to Wednesday")
     = Some (latest_trade_day (Demo.services None))
  /\ let st1 := snd (update (Demo.services None) Demo.fresh_cache) in
     let st2 := snd (update (Demo.services None) st1) in
     files st1 = files Demo.fresh_cache
     /\ files st2 = files st1
     /\ files st2 !! file_path st2 = Some "cache up to Wednesday".
Proof.
  split; [vm_compute; reflexivity|]. split; [vm_compute; reflexivity|].
  apply (update_twice_keeps_file (Demo.services None) Demo.fresh_cache
           "cache up to Wednesday"); vm_compute; reflexivity.
Defined.

(** * Further properties of the methods *)

(** ** The directory of the cache file *)

Lemma has_sep_app (s t : string) : has_sep (s +:+ t) = has_sep s || has_sep t.
Proof.
  induction s as [|c s IH]; [reflexivity|].
  rewrite append_cons. simpl. rewrite IH. by rewrite orb_assoc.
Qed.

Lemma all_sep_app (s t : string) : all_sep (s +:+ t) = all_sep s && all_sep t.
Proof.
  induction s as [|c s IH]; [reflexivity|].
  rewrite append_cons. simpl. rewrite IH. by rewrite andb_assoc.
Qed.

(** Up to its last separator, a path that ends in a plain name is what
    stands before that name. *)
Lemma upto_last_sep_app (a b : string) :
  has_sep b = false -> upto_last_sep (a +:+ sep +:+ b) = a +:+ sep.
Proof.
  intros Hb. induction a as [|c a IH].
  - change ("" +:+ sep +:+ b) with (String "/" b). simpl. by rewrite Hb.
  - rewrite !append_cons. simpl. rewrite IH.
    rewrite has_sep_app. change (sep +:+ b) with (String "/" b). simpl.
    by rewrite orb_true_r.
Qed.

Lemma rstrip_sep_app (s t : string) :
  rstrip_sep t <> "" -> rstrip_sep (s +:+ t) = s +:+ rstrip_sep t.
Proof.
  intros Ht. induction s as [|c s IH]; [reflexivity|].
  rewrite !append_cons. simpl. rewrite IH.
  destruct (s +:+ rstrip_sep t) eqn:E; [|reflexivity].
  destruct s; [by destruct Ht|discriminate].
Qed.

Lemma dirname_market (prefix : string) :
  dirname (prefix +:+ "market/margin_trading_detail.csv") = prefix +:+ "market".
Proof.
  change "market/margin_trading_detail.csv"
    with ("market" +:+ sep +:+ "margin_trading_detail.csv").
  rewrite <- (append_assoc prefix "market").
  unfold dirname. rewrite upto_last_sep_app by reflexivity. cbv zeta.
  destruct (decide ((prefix +:+ "market") +:+ sep = "")) as [E|_].
  { rewrite append_assoc in E. destruct (append_letter_not_empty _ _ _ E). }
  rewrite !all_sep_app. change (all_sep "market") with false.
  rewrite andb_false_r. cbn [andb negb].
  rewrite append_assoc. change ("market" +:+ sep) with "market/".
  by rewrite rstrip_sep_app.
Qed.

(** ** What a call reads and what it leaves *)

Section Calls.
Context {Remote Exn : Type} (S : Services Remote Exn).
Implicit Types (st : State Remote) (df : DataFrame) (d : date).

Lemma cached_table_setup_dir st : cached_table S (_setup_dir_ st) = cached_table S st.
Proof.
  unfold cached_table, prepare, load, _setup_dir_, file_path, frame. simpl.
  destruct (dataframe st); [done|].
  by destruct (files st !! _).
Qed.

Lemma cached_table_prepare st : cached_table S (prepare S st) = cached_table S st.
Proof. unfold cached_table at 1. by rewrite prepare_idem. Qed.

(** The table [update] works on is the one a [prepare] of the state it
    starts from gives. *)
Lemma cached_table_update_start st :
  cached_table S (prepare S (_setup_dir_ st)) = cached_table S st.
Proof. by rewrite cached_table_prepare, cached_table_setup_dir. Qed.

Lemma should_update_fst st :
  fst (should_update S st)
  = if path_exists (file_path st) st
    then need_update_by_trade_date S (cached_table S st) else true.
Proof. unfold should_update. by destruct (path_exists _ _). Qed.

Lemma path_exists_same_cache st st' :
  same_cache st st' -> path_exists (file_path st') st' = path_exists (file_path st) st.
Proof. intros H. unfold path_exists. by rewrite (same_cache_lookup _ _ H). Qed.

(** [should_update] and [start_date] answer by the files and the table
    after [prepare] alone. *)
Lemma should_update_same st st' :
  same_cache st st' -> cached_table S st' = cached_table S st ->
  fst (should_update S st') = fst (should_update S st).
Proof.
  intros Hc Ht. rewrite !should_update_fst, Ht. by rewrite (path_exists_same_cache _ _ Hc).
Qed.

Lemma start_date_same st st' :
  cached_table S st' = cached_table S st ->
  fst (start_date S st') = fst (start_date S st).
Proof.
  intros Ht. unfold start_date. fold (cached_table S st) (cached_table S st').
  rewrite Ht. destruct (empty _); [done|]. by destruct (last _).
Qed.

Lemma days_to_fetch_same st st' :
  cached_table S st' = cached_table S st -> days_to_fetch S st' = days_to_fetch S st.
Proof. intros Ht. unfold days_to_fetch. by rewrite (start_date_same _ _ Ht). Qed.

Lemma update_start_same_cache st : same_cache st (prepare S (_setup_dir_ st)).
Proof. eapply same_cache_trans; [apply setup_dir_same_cache|apply prepare_same_cache]. Qed.

(** [update] by what [should_update] and [start_date] answer in the state
    it is called in. *)
Lemma update_from st :
  update S st
  = if fst (should_update S st)
    then let r := fetch_loop S (days_to_fetch S st) [cached_table S st]
                    (prepare S (_setup_dir_ st)) in
         (fst (fst r), snd r)
    else (None, prepare S (_setup_dir_ st)).
Proof.
  rewrite update_eq. cbv zeta.
  rewrite (should_update_same st _ (update_start_same_cache st)
             (cached_table_update_start st)).
  rewrite (days_to_fetch_same st _ (cached_table_update_start st)).
  unfold frame. rewrite prepare_loaded, cached_table_setup_dir. done.
Qed.

(** The loop asks for an initial part of its days, all of them when it
    ends by itself; when an exception ends it, the last day asked for is
    one on which the provider raised it. *)
Lemma fetch_loop_trace days (df_list : list DataFrame) st :
  exists n,
    (n <= length days)%nat
    /\ requests (snd (fetch_loop S days df_list st)) = requests st ++ take n days
    /\ match fst (fst (fetch_loop S days df_list st)) with
       | None => n = length days
       | Some ex =>
           exists d r, days !! Nat.pred n = Some d /\ (0 < n)%nat
                       /\ fst (margin_detail S r d) = inl ex
       end.
Proof.
  revert st. induction days as [|d days IH]; intros st; simpl.
  - exists 0%nat. by rewrite app_nil_r.
  - pose proof (ts_margin_detail_requests S d st) as Hr.
    assert (Hex : forall ex, fst (ts_margin_detail S d st) = inl ex ->
                             fst (margin_detail S (remote st) d) = inl ex).
    { intros ex. unfold ts_margin_detail.
      by destruct (margin_detail S (remote st) d) as [[ex'|df] r]. }
    destruct (ts_margin_detail S d st) as [[ex|df] st1]; simpl in *.
    + exists 1%nat. split; [lia|]. split; [by rewrite Hr|].
      exists d, (remote st). split; [done|]. split; [lia|]. by apply Hex.
    + destruct (IH st1) as (n & Hn & Hreq & Hout). exists (Datatypes.S n).
      split; [lia|]. split; [by rewrite Hreq, Hr, <- app_assoc|].
      destruct (fst (fst (fetch_loop S days _ st1))) as [ex|].
      * destruct Hout as (d' & r & Hd & Hpos & Hraise).
        exists d', r. split; [|split; [lia|done]].
        destruct n as [|n]; [lia|]. exact Hd.
      * by rewrite Hout.
Qed.

Lemma cached_table_in_sync st :
  in_sync S st -> cached_table S st = table_on_disk S (data_dir st) (files st).
Proof.
  intros [E|E].
  - by rewrite (cached_table_unloaded S _ E).
  - by rewrite (cached_table_loaded S _ _ E).
Qed.

Lemma in_sync_same st st' :
  same_cache st st' -> dataframe st' = dataframe st -> in_sync S st -> in_sync S st'.
Proof. intros [Hd Hf] E. unfold in_sync. by rewrite E, Hd, Hf. Qed.

Lemma prepare_in_sync st : in_sync S st -> in_sync S (prepare S st).
Proof.
  intros H. right. rewrite prepare_loaded, (cached_table_in_sync _ H).
  by destruct (prepare_same_cache S st) as [-> ->].
Qed.

(** No call writes a file or moves the manager to another directory, and
    each keeps the table in memory in line with the cache file. *)
Lemma call_keeps st st' :
  call S st st' -> in_sync S st -> same_cache st st' /\ in_sync S st'.
Proof.
  intros Hc Hs. destruct Hc as [st|st|st|st|st|d st|st].
  - split; [apply setup_dir_same_cache|]. by apply (in_sync_same st).
  - rewrite load_eq. simpl. split; [by split|]. right. simpl.
    unfold load, table_on_disk, file_path. by destruct (files st !! _).
  - split; [apply prepare_same_cache|by apply prepare_in_sync].
  - destruct (should_update_state S st) as [-> | ->].
    + split; [apply same_cache_refl|done].
    + split; [apply prepare_same_cache|by apply prepare_in_sync].
  - rewrite start_date_state.
    split; [apply prepare_same_cache|by apply prepare_in_sync].
  - split; [apply ts_margin_detail_same_cache|].
    apply (in_sync_same st); [apply ts_margin_detail_same_cache| |done].
    apply ts_margin_detail_dataframe.
  - split; [apply update_same_cache|].
    assert (H1 : in_sync S (prepare S (_setup_dir_ st))).
    { apply prepare_in_sync. by apply (in_sync_same st); [apply setup_dir_same_cache|..]. }
    rewrite update_eq. cbv zeta.
    destruct (fst (should_update S _)); simpl; [|done].
    destruct (fetch_loop_frame S (days_to_fetch S (prepare S (_setup_dir_ st)))
                [frame (prepare S (_setup_dir_ st))] (prepare S (_setup_dir_ st)))
      as (_ & Hc & Hd).
    by apply (in_sync_same (prepare S (_setup_dir_ st))).
Qed.

Lemma reachable_keeps dir fs ds r st :
  reachable S dir fs ds r st ->
  data_dir st = dir /\ files st = fs /\ in_sync S st.
Proof.
  unfold reachable. intros H.
  eapply (rtc_ind_r (fun st => data_dir st = dir /\ files st = fs /\ in_sync S st));
    [| |exact H].
  - split; [done|]. split; [done|]. by left.
  - intros st1 st2 _ Hcall (Hd & Hf & Hs).
    destruct (call_keeps _ _ Hcall Hs) as ([Hd' Hf'] & Hs').
    split; [congruence|]. split; [congruence|done].
Qed.

Lemma table_on_disk_sorted dir fs :
  StronglySorted by_trade_date (table_on_disk S dir fs).
Proof.
  unfold table_on_disk. destruct (fs !! _); [apply sort_values_sorted|constructor].
Qed.

End Calls.

(** ** [prepare], [should_update] and [start_date] as queries *)

(** X1: [prepare] keeps a table that is in memory and loads one when there
    is none; once it has run, running it again changes nothing, not even
    after the files have changed. *)
Theorem prepare_loads_once {Remote Exn} (S : Services Remote Exn) (st : State Remote) :
  (forall df, prepare S (set_dataframe (Some df) st) = set_dataframe (Some df) st)
  /\ prepare S (set_dataframe None st) = snd (load S st)
  /\ prepare S (prepare S st) = prepare S st
  /\ (forall fs, prepare S (set_files fs (prepare S st)) = set_files fs (prepare S st)).
Proof.
  split; [reflexivity|]. split.
  - unfold prepare, load, file_path. simpl. by destruct (files st !! _).
  - split; [apply prepare_idem|].
    intros fs. unfold prepare at 1. simpl. by rewrite prepare_loaded.
Qed.

(** X2: [should_update] and [start_date] answer the same when asked again,
    and each answers the same before and after the other. *)
Theorem queries_repeat_and_commute {Remote Exn} (S : Services Remote Exn)
    (st : State Remote) :
  fst (should_update S (snd (should_update S st))) = fst (should_update S st)
  /\ fst (start_date S (snd (start_date S st))) = fst (start_date S st)
  /\ fst (should_update S (snd (start_date S st))) = fst (should_update S st)
  /\ fst (start_date S (snd (should_update S st))) = fst (start_date S st).
Proof.
  assert (Hp : fst (should_update S (prepare S st)) = fst (should_update S st)).
  { apply should_update_same; [apply prepare_same_cache|apply cached_table_prepare]. }
  assert (Hd : fst (start_date S (prepare S st)) = fst (start_date S st)).
  { apply start_date_same, cached_table_prepare. }
  rewrite !start_date_state.
  destruct (should_update_state S st) as [-> | ->]; auto.
Qed.

(** ** [_setup_dir_] *)

Lemma upto_last_sep_length (p : string) :
  (String.length (upto_last_sep p) <= String.length p)%nat
  /\ (String.length (upto_last_sep p) = String.length p -> upto_last_sep p = p).
Proof.
  induction p as [|c p [IH1 IH2]]; simpl; [done|].
  destruct (has_sep p); simpl.
  - split; [lia|]. intros [= H]. f_equal. by apply IH2.
  - destruct (is_sep c); simpl; (split; [lia|]); [|lia].
    intros [= H]. destruct p; [done|discriminate].
Qed.

Lemma rstrip_sep_length (s : string) :
  (String.length (rstrip_sep s) <= String.length s)%nat
  /\ (String.length (rstrip_sep s) = String.length s -> rstrip_sep s = s).
Proof.
  induction s as [|c s [IH1 IH2]]; simpl; [done|].
  destruct (rstrip_sep s) as [|c' t] eqn:E.
  - destruct (is_sep c); simpl; (split; [lia|]); [lia|].
    intros [= H]. destruct s; [done|discriminate].
  - simpl in *. split; [lia|]. intros [= H]. f_equal. by apply IH2.
Qed.

(** A [dirname] other than the path itself is shorter than the path. *)
Lemma dirname_shorter (p : string) :
  dirname p <> p -> (String.length (dirname p) < String.length p)%nat.
Proof.
  intros Hne.
  destruct (upto_last_sep_length p) as [H1 H2].
  destruct (rstrip_sep_length (upto_last_sep p)) as [H3 H4].
  assert (Hle : (String.length (dirname p) <= String.length p)%nat).
  { unfold dirname. cbv zeta. destruct (_ && _); lia. }
  destruct (decide (String.length (dirname p) = String.length p)) as [E|E]; [|lia].
  destruct Hne. revert E. unfold dirname. cbv zeta.
  destruct (_ && _); intros E.
  - rewrite H4 by lia. apply H2. lia.
  - by apply H2.
Qed.

(** The length of a path is fuel enough to list all its parents. *)
Lemma parents_enough (fuel fuel' : nat) (p : string) :
  (String.length p <= fuel)%nat -> (String.length p <= fuel')%nat ->
  parents fuel p = parents fuel' p.
Proof.
  revert fuel' p. induction fuel as [|fuel IH]; intros fuel' p H1 H2.
  - destruct p; [|simpl in H1; lia].
    destruct fuel'; reflexivity.
  - destruct fuel' as [|fuel'].
    + destruct p; [reflexivity|simpl in H2; lia].
    + simpl. destruct (decide (dirname p = "")); [done|].
      destruct (decide (dirname p = p)) as [|Hne]; [done|].
      apply dirname_shorter in Hne. f_equal. apply IH; lia.
Qed.

Lemma makedirs_leaf (name : string) (ds : gset string) : name ∈ makedirs name ds.
Proof.
  unfold makedirs. apply elem_of_union_r, elem_of_list_to_set, list_elem_of_here.
Qed.

Lemma makedirs_keeps (name : string) (ds : gset string) : ds ⊆ makedirs name ds.
Proof. unfold makedirs. apply union_subseteq_l. Qed.

Lemma makedirs_again (name : string) (ds : gset string) :
  makedirs name (makedirs name ds) = makedirs name ds.
Proof. unfold makedirs. by rewrite <- (assoc_L (∪)), (idemp_L (∪)). Qed.

Example makedirs_with_parents :
  makedirs "/data/market" ∅ = {[ "/data/market"; "/data"; "/" ]}
  /\ makedirs "data/market" {[ "data" ]} = {[ "data/market"; "data" ]}.
Proof. split; vm_compute; reflexivity. Qed.

Lemma dirname_file_path {Remote} (st : State Remote) :
  dirname (file_path st) = data_dir st +:+ joint (data_dir st) +:+ "market".
Proof.
  unfold file_path. rewrite path_join_market, <- append_assoc, dirname_market.
  apply append_assoc.
Qed.

(** X3: [_setup_dir_] makes the directory [market] under [data_dir], which
    is the directory of the cache file; it keeps the directories there
    were, touches no file, and does nothing when called again. *)
Theorem setup_dir_makes_market {Remote} (st : State Remote) :
  dirname (file_path st) = data_dir st +:+ joint (data_dir st) +:+ "market"
  /\ dirname (file_path st) ∈ dirs (_setup_dir_ st)
  /\ dirs st ⊆ dirs (_setup_dir_ st)
  /\ files (_setup_dir_ st) = files st
  /\ _setup_dir_ (_setup_dir_ st) = _setup_dir_ st.
Proof.
  split; [apply dirname_file_path|].
  split; [apply makedirs_leaf|]. split; [apply makedirs_keeps|].
  split; [reflexivity|].
  unfold _setup_dir_, set_dirs, file_path. simpl. f_equal. apply makedirs_again.
Qed.

(** ** [ts_margin_detail] *)

(** X4: [ts_margin_detail] asks the provider once, for the day it is given;
    an exception of the provider comes out as it is, an answer comes out
    with the same rows in ascending order of trade date; the object and the
    files stay as they were. *)
Theorem ts_margin_detail_answer {Remote Exn} (S : Services Remote Exn)
    (d : date) (st : State Remote) :
  let r := ts_margin_detail S d st in
  requests (snd r) = requests st ++ [d]
  /\ remote (snd r) = snd (margin_detail S (remote st) d)
  /\ dataframe (snd r) = dataframe st
  /\ files (snd r) = files st
  /\ dirs (snd r) = dirs st
  /\ match fst (margin_detail S (remote st) d) with
     | inl ex => fst r = inl ex
     | inr df =>
         exists df', fst r = inr df' /\ df' ≡ₚ df
                     /\ StronglySorted by_trade_date df'
     end.
Proof.
  cbv zeta. unfold ts_margin_detail.
  destruct (margin_detail S (remote st) d) as [[ex|df] rm]; simpl;
    repeat (split; [done|]); [done|].
  exists (sort_values df).
  split; [done|]. split; [apply sort_values_perm|apply sort_values_sorted].
Qed.

(** ** [update] *)

(** X5: [update] asks the provider for an initial part of the trading days
    from [start_date()] to the latest one, in their order and for nothing
    else: for none when [should_update()] says no, for all when it returns
    normally, and up to the day on which the provider raised the exception
    that [update] passes on. *)
Theorem update_requests_trace {Remote Exn} (S : Services Remote Exn)
    (st : State Remote) :
  exists n,
    (n <= length (days_to_fetch S st))%nat
    /\ requests (snd (update S st)) = requests st ++ take n (days_to_fetch S st)
    /\ match fst (update S st) with
       | None =>
           n = if fst (should_update S st)
               then length (days_to_fetch S st) else 0%nat
       | Some ex =>
           fst (should_update S st) = true /\ (0 < n)%nat
           /\ exists d r, days_to_fetch S st !! Nat.pred n = Some d
                          /\ fst (margin_detail S r d) = inl ex
       end.
Proof.
  rewrite update_from. destruct (fst (should_update S st)); cbv zeta; simpl.
  - destruct (fetch_loop_trace S (days_to_fetch S st) [cached_table S st]
                (prepare S (_setup_dir_ st))) as (n & Hn & Hreq & Hout).
    exists n. split; [done|]. split.
    + rewrite Hreq. f_equal. by rewrite prepare_requests.
    + destruct (fst (fst (fetch_loop S _ _ _))) as [ex|]; [|done].
      destruct Hout as (d & r & Hd & Hpos & Hraise). eauto 7.
  - exists 0%nat. split; [lia|]. split; [|done].
    by rewrite prepare_requests, take_0, app_nil_r.
Qed.

(** X6: after [update], [should_update()] and [start_date()] answer what
    they answered before it, and the days to fetch are the same: the table
    in memory is the one [prepare] gave. *)
Theorem update_changes_no_answer {Remote Exn} (S : Services Remote Exn)
    (st : State Remote) :
  let st' := snd (update S st) in
  cached_table S st' = cached_table S st
  /\ fst (should_update S st') = fst (should_update S st)
  /\ fst (start_date S st') = fst (start_date S st)
  /\ days_to_fetch S st' = days_to_fetch S st.
Proof.
  cbv zeta.
  assert (Ht : cached_table S (snd (update S st)) = cached_table S st).
  { rewrite update_eq. cbv zeta.
    destruct (fst (should_update S _)); simpl;
      [|apply cached_table_update_start].
    destruct (fetch_loop_frame S (days_to_fetch S (prepare S (_setup_dir_ st)))
                [frame (prepare S (_setup_dir_ st))] (prepare S (_setup_dir_ st)))
      as (_ & _ & Hd).
    rewrite prepare_loaded in Hd.
    rewrite (cached_table_loaded S _ _ Hd). apply cached_table_setup_dir. }
  split; [exact Ht|]. split; [|split].
  - apply should_update_same; [apply update_same_cache|exact Ht].
  - by apply start_date_same.
  - by apply days_to_fetch_same.
Qed.



(** ** The merge and the [finally] block *)

Lemma elem_of_merge_frames (df_list : list DataFrame) (r : Row) :
  r ∈ merge_frames df_list <-> r ∈ concat df_list.
Proof. unfold merge_frames. by rewrite elem_of_sort_values, elem_of_drop_duplicates. Qed.

Lemma NoDup_merge_frames (df_list : list DataFrame) : NoDup (merge_frames df_list).
Proof.
  unfold merge_frames. rewrite sort_values_perm. apply NoDup_drop_duplicates_from.
Qed.

(** Tables with the same rows have the same max trade date. *)
Lemma max_trade_date_same_rows (df df' : DataFrame) :
  (forall r, r ∈ df <-> r ∈ df') -> max_trade_date df = max_trade_date df'.
Proof.
  intros H. destruct (max_trade_date df) as [m|] eqn:E.
  - symmetry. apply max_trade_date_Some in E. apply max_trade_date_Some.
    destruct E as ((r & Hr & Hm) & Hub). split.
    + exists r. split; [by apply H|done].
    + intros r' Hr'. apply Hub. by apply H.
  - apply max_trade_date_None in E. subst df. symmetry.
    apply max_trade_date_None. destruct df' as [|r df']; [done|].
    assert (Hr : r ∈ @nil Row) by (apply H, list_elem_of_here). inversion Hr.
Qed.

Lemma persist_file_path {Remote Exn} (S : Services Remote Exn)
    (df_list : list DataFrame) (st : State Remote) :
  file_path (persist S df_list st) = file_path st.
Proof. unfold persist. by destruct (1 <? length df_list)%nat. Qed.

(** X8: slices that only repeat records of the cache merge into the cache:
    the merged table has the rows of the cache and no others. *)
Theorem merge_frames_absorbs (cache : DataFrame) (slices : list DataFrame) :
  NoDup cache ->
  Forall (Forall (fun r => r ∈ cache)) slices ->
  merge_frames (cache :: slices) ≡ₚ cache.
Proof.
  intros Hnd Hin. apply NoDup_Permutation; [apply NoDup_merge_frames|done|].
  intros r. rewrite elem_of_merge_frames, elem_of_concat. split.
  - intros (df & Hdf & Hr). apply elem_of_cons in Hdf as [->|Hdf]; [done|].
    rewrite Forall_forall in Hin. specialize (Hin df Hdf).
    rewrite Forall_forall in Hin. by apply Hin.
  - intros Hr. exists cache. split; [apply list_elem_of_here|done].
Qed.

(** X9: once the [finally] block has written a merge, and with a CSV
    codec that reads that text back as the table, [load] returns the rows
    of the merge in ascending order, and [start_date] is the day after the
    newest trade date among the tables of [df_list]. *)
Theorem merge_written_then_read {Remote Exn} (S : Services Remote Exn)
    (df_list : list DataFrame) (st : State Remote) :
  (1 < length df_list)%nat ->
  read_csv S (to_csv S (merge_frames df_list)) = merge_frames df_list ->
  let st' := persist S df_list st in
  fst (load S st') ≡ₚ merge_frames df_list
  /\ StronglySorted by_trade_date (fst (load S st'))
  /\ fst (start_date S st')
     = match max_trade_date (concat df_list) with
       | Some m => m + 1
       | None => base_date
       end.
Proof.
  intros Hlen Hcodec. cbv zeta.
  destruct (persist_long S df_list st Hlen) as [Hfile Hframe].
  assert (Hload : fst (load S (persist S df_list st))
                  = sort_values (merge_frames df_list)).
  { unfold load. rewrite persist_file_path, Hfile. simpl. by rewrite Hcodec. }
  split; [rewrite Hload; apply sort_values_perm|].
  split; [rewrite Hload; apply sort_values_sorted|].
  rewrite start_date_eq.
  - rewrite (cached_table_loaded S _ _ Hframe).
    by rewrite (max_trade_date_same_rows _ _ (elem_of_merge_frames df_list)).
  - unfold frame_sorted. rewrite Hframe. apply sort_values_sorted.
Qed.

(** ** The manager over any number of calls *)

(** X10: whatever methods are called on a new manager, in whatever order,
    no file is created or changed, the cache path stays the same, and the
    table in memory is either not set or the sorted table of the cache
    file (the empty table without one). *)
Theorem calls_keep_cache {Remote Exn} (S : Services Remote Exn) (dir : string)
    (fs : gmap string string) (ds : gset string) (r : Remote) (st : State Remote) :
  reachable S dir fs ds r st ->
  files st = fs
  /\ file_path st = path_join dir ["market"; "margin_trading_detail.csv"]
  /\ (dataframe st = None \/ dataframe st = Some (table_on_disk S dir fs))
  /\ frame_sorted st.
Proof.
  intros H. destruct (reachable_keeps S _ _ _ _ _ H) as (Hd & Hf & Hs).
  split; [done|]. split; [unfold file_path; by rewrite Hd|].
  unfold in_sync in Hs. rewrite Hd, Hf in Hs. split; [done|].
  unfold frame_sorted. destruct Hs as [-> | ->]; [done|apply table_on_disk_sorted].
Qed.

(** X11: after any calls on a new manager, [start_date] is the day after
    the max trade date of the cache file as it was found, and the base
    date when there is no cache file or it has no rows. *)
Theorem start_date_from_cache_file {Remote Exn} (S : Services Remote Exn)
    (dir : string) (fs : gmap string string) (ds : gset string) (r : Remote)
    (st : State Remote) :
  reachable S dir fs ds r st ->
  fst (start_date S st)
  = match fs !! path_join dir ["market"; "margin_trading_detail.csv"] with
    | Some text =>
        match max_trade_date (read_csv S text) with
        | Some m => m + 1
        | None => base_date
        end
    | None => base_date
    end.
Proof.
  intros H. destruct (reachable_keeps S _ _ _ _ _ H) as (Hd & Hf & Hs).
  rewrite start_date_eq.
  - rewrite (cached_table_in_sync S _ Hs), Hd, Hf. unfold table_on_disk.
    destruct (fs !! _) as [text|]; [|done].
    by rewrite (max_trade_date_perm _ _ (sort_values_perm (read_csv S text))).
  - unfold frame_sorted. unfold in_sync in Hs.
    destruct Hs as [-> | ->]; [done|apply table_on_disk_sorted].
Qed.

(** ** The further statements at work *)

(** Merging the Monday cache with a slice that repeats one of its records
    gives the Monday cache. *)
Lemma merge_frames_absorbs_witness :
  NoDup Demo.monday_table
  /\ Forall (Forall (fun r => r ∈ Demo.monday_table)) Demo.monday_again
  /\ merge_frames (Demo.monday_table :: Demo.monday_again) ≡ₚ Demo.monday_table.
Proof.
  assert (H1 : NoDup Demo.monday_table).
  { apply (bool_decide_unpack (NoDup Demo.monday_table)). vm_compute. exact I. }
  assert (H2 : Forall (Forall (fun r => r ∈ Demo.monday_table)) Demo.monday_again).
  { apply (bool_decide_unpack
             (Forall (Forall (fun r => r ∈ Demo.monday_table)) Demo.monday_again)).
    vm_compute. exact I. }
  split; [exact H1|]. split; [exact H2|].
  apply (merge_frames_absorbs Demo.monday_table Demo.monday_again H1 H2).
Defined.

(** The demo codec reads the Monday cache back; written by the [finally]
    block it is loaded again, and the next start is Tuesday. *)
Lemma merge_written_then_read_witness :
  let S := Demo.services None in
  let df_list := [Demo.monday_table; Demo.monday_table] in
  let st' := persist S df_list Demo.no_cache in
  (1 < length df_list)%nat
  /\ read_csv S (to_csv S (merge_frames df_list)) = merge_frames df_list
  /\ fst (load S st') ≡ₚ merge_frames df_list
  /\ StronglySorted by_trade_date (fst (load S st'))
  /\ fst (start_date S st')
     = match max_trade_date (concat df_list) with
       | Some m => m + 1
       | None => base_date
       end.
Proof.
  cbv zeta.
  assert (H1 : (1 < length [Demo.monday_table; Demo.monday_table])%nat)
    by (simpl; lia).
  assert (H2 : read_csv (Demo.services None)
                 (to_csv (Demo.services None)
                    (merge_frames [Demo.monday_table; Demo.monday_table]))
               = merge_frames [Demo.monday_table; Demo.monday_table])
    by (vm_compute; reflexivity).
  split; [exact H1|]. split; [exact H2|].
  apply (merge_written_then_read (Demo.services None)
           [Demo.monday_table; Demo.monday_table] Demo.no_cache H1 H2).
Defined.

(** A manager on the Monday cache after [should_update], [update] and
    [load]. *)
Lemma calls_keep_cache_witness :
  let S := Demo.services None in
  let st := snd (load S (snd (update S (snd (should_update S Demo.stale_cache))))) in
  reachable S "/data" (files Demo.stale_cache) ∅ 0%nat st
  /\ files st = files Demo.stale_cache
  /\ file_path st = path_join "/data" ["market"; "margin_trading_detail.csv"]
  /\ (dataframe st = None
      \/ dataframe st = Some (table_on_disk S "/data" (files Demo.stale_cache)))
  /\ frame_sorted st.
Proof.
  cbv zeta.
  assert (H : reachable (Demo.services None) "/data" (files Demo.stale_cache) ∅ 0%nat
                (snd (load (Demo.services None)
                   (snd (update (Demo.services None)
                      (snd (should_update (Demo.services None) Demo.stale_cache))))))).
  { unfold reachable.
    eapply rtc_l; [apply call_should_update|].
    eapply rtc_l; [apply call_update|].
    eapply rtc_l; [apply call_load|]. apply rtc_refl. }
  split; [exact H|].
  apply (calls_keep_cache (Demo.services None) "/data" (files Demo.stale_cache)
           ∅ 0%nat _ H).
Defined.

(** After an [update] that the provider cut short on Tuesday, the start
    on the Monday cache is still Tuesday. *)
Lemma start_date_from_cache_file_witness :
  let S := Demo.services (Some Demo.tue) in
  let st := snd (update S (snd (start_date S Demo.stale_cache))) in
  reachable S "/data" (files Demo.stale_cache) ∅ 0%nat st
  /\ fst (start_date S st)
     = match files Demo.stale_cache
             !! path_join "/data" ["market"; "margin_trading_detail.csv"] with
       | Some text =>
           match max_trade_date (read_csv S text) with
           | Some m => m + 1
           | None => base_date
           end
       | None => base_date
       end.
Proof.
  cbv zeta.
  assert (H : reachable (Demo.services (Some Demo.tue)) "/data"
                (files Demo.stale_cache) ∅ 0%nat
                (snd (update (Demo.services (Some Demo.tue))
                   (snd (start_date (Demo.services (Some Demo.tue)) Demo.stale_cache))))).
  { unfold reachable.
    eapply rtc_l; [apply call_start_date|].
    eapply rtc_l; [apply call_update|]. apply rtc_refl. }
  split; [exact H|].
  apply (start_date_from_cache_file (Demo.services (Some Demo.tue)) "/data"
           (files Demo.stale_cache) ∅ 0%nat _ H).
Defined.

(** ** [start_date] and [should_update] against the cache file *)

(** C7: for a manager whose table, if one is loaded, is the table of the
    cache file, [start_date] returns the base date when there is no cache
    file or the file has no rows, and otherwise the day after the max
    trade date of the rows of the file. *)
Theorem start_date_after_cached_max {Remote Exn} (S : Services Remote Exn)
    (st : State Remote) :
  in_sync S st ->
  match files st !! file_path st with
  | Some text =>
      match read_csv S text with
      | [] => fst (start_date S st) = base_date
      | _ :: _ =>
          exists m, max_trade_date (read_csv S text) = Some m
                    /\ fst (start_date S st) = m + 1
      end
  | None => fst (start_date S st) = base_date
  end.
Proof.
  intros Hs.
  assert (Hsorted : frame_sorted st).
  { unfold frame_sorted. destruct Hs as [-> | ->]; [done|apply table_on_disk_sorted]. }
  rewrite (start_date_eq S st Hsorted), (cached_table_in_sync S _ Hs).
  unfold table_on_disk. fold (file_path st).
  destruct (files st !! file_path st) as [text|]; [|done].
  rewrite (max_trade_date_perm _ _ (sort_values_perm (read_csv S text))).
  destruct (read_csv S text) as [|r df] eqn:E; [done|].
  destruct (max_trade_date (r :: df)) as [m|] eqn:Em.
  - by exists m.
  - by apply max_trade_date_None in Em.
Qed.

(** C8: with the helper as the spec describes it, and for a manager whose
    table, if one is loaded, is the table of the cache file,
    [should_update] answers true exactly when there is no cache file or
    the max trade date of the rows of the file is strictly before the
    latest trading day. *)
Theorem should_update_iff {Remote Exn} (S : Services Remote Exn) (st : State Remote) :
  helper_per_spec S ->
  in_sync S st ->
  fst (should_update S st) = true <->
  files st !! file_path st = None
  \/ exists text m, files st !! file_path st = Some text
                    /\ max_trade_date (read_csv S text) = Some m
                    /\ m < latest_trade_day S.
Proof.
  intros Hh Hs. rewrite should_update_fst. unfold path_exists.
  rewrite (cached_table_in_sync S _ Hs). unfold table_on_disk. fold (file_path st).
  destruct (files st !! file_path st) as [text|] eqn:E.
  - rewrite bool_decide_eq_true_2 by eauto.
    rewrite Hh. unfold need_update_by_trade_date_model.
    rewrite (max_trade_date_perm _ _ (sort_values_perm (read_csv S text))).
    destruct (max_trade_date (read_csv S text)) as [m|] eqn:Em.
    + rewrite Z.ltb_lt. split.
      * intros H. right. by exists text, m.
      * intros [?|(text' & m' & [= <-] & Hm & H)]; [done|]. congruence.
    + split; [done|]. intros [?|(text' & m' & [= <-] & Hm & _)]; congruence.
  - rewrite bool_decide_eq_false_2 by (intros [? ?]; done).
    split; auto.
Qed.

(** A new manager on the cache that ends on Wednesday starts on
    Thursday. *)
Lemma start_date_after_cached_max_witness :
  in_sync (Demo.services None) Demo.fresh_cache
  /\ match files Demo.fresh_cache !! file_path Demo.fresh_cache with
     | Some text =>
         match read_csv (Demo.services None) text with
         | [] => fst (start_date (Demo.services None) Demo.fresh_cache) = base_date
         | _ :: _ =>
             exists m,
               max_trade_date (read_csv (Demo.services None) text) = Some m
               /\ fst (start_date (Demo.services None) Demo.fresh_cache) = m + 1
         end
     | None => fst (start_date (Demo.services None) Demo.fresh_cache) = base_date
     end.
Proof.
  assert (H : in_sync (Demo.services None) Demo.fresh_cache) by (left; reflexivity).
  split; [exact H|].
  apply (start_date_after_cached_max (Demo.services None) Demo.fresh_cache H).
Defined.

(** The demo services use the modelled helper; for a new manager on the
    cache that ends on Monday the equivalence holds with both sides
    true. *)
Lemma should_update_iff_witness :
  helper_per_spec (Demo.services None)
  /\ in_sync (Demo.services None) Demo.stale_cache
  /\ (fst (should_update (Demo.services None) Demo.stale_cache) = true <->
      files Demo.stale_cache !! file_path Demo.stale_cache = None
      \/ exists text m,
           files Demo.stale_cache !! file_path Demo.stale_cache = Some text
           /\ max_trade_date (read_csv (Demo.services None) text) = Some m
           /\ m < latest_trade_day (Demo.services None)).
Proof.
  assert (H1 : helper_per_spec (Demo.services None)) by (intros df; reflexivity).
  assert (H2 : in_sync (Demo.services None) Demo.stale_cache) by (left; reflexivity).
  split; [exact H1|]. split; [exact H2|].
  apply (should_update_iff (Demo.services None) Demo.stale_cache H1 H2).
Defined.

Example should_update_on_stale_cache :
  fst (should_update (Demo.services None) Demo.stale_cache) = true
  /\ fst (start_date (Demo.services None) Demo.stale_cache) = Demo.tue.
Proof. split; vm_compute; reflexivity. Qed.
